(** * The [models] package initialiser: lazy singleton accessor and re-exports

    Shallow embedding of [src/models/__init__.py].  The module body and
    [get_generator] are written as computations in a state-and-exception
    monad over the process state; the module's global namespace is a finite
    map from names to Python values. *)

From Stdlib Require Import Ascii.
From stdpp Require Import gmap strings list.

Local Open Scope string_scope.
Local Open Scope list_scope.

(** ** Python values and process state *)

(** Object identity: the address of a heap object. *)
Definition ref := nat.

(** The Python values that occur in the package namespace. *)
Inductive pyval : Type :=
  | PyNone
  | PyObj (r : ref)                                (* a generator instance *)
  | PyStr (s : string)
  | PyStrList (items : list string)
  | PyClass (defined_in : string) (name : string)  (* a collaborator's class *)
  | PyModule (name : string)                       (* a submodule object *)
  | PyFunction (name : string) (params : list string)
  | PyDict (keys : list string).                   (* a dict, by its keys *)

Global Instance pyval_eq_dec : EqDecision pyval.
Proof. solve_decision. Defined.

(** [x is None] *)
Definition is_None (v : pyval) : bool :=
  match v with PyNone => true | _ => false end.

Definition is_function (v : pyval) : bool :=
  match v with PyFunction _ _ => true | _ => false end.

Definition is_class (v : pyval) : bool :=
  match v with PyClass _ _ => true | _ => false end.

(** The values that can stand before [()]: a class, a function, and an
    object, whose class may define [__call__].  Calling any other value
    raises [TypeError]. *)
Definition callable (v : pyval) : bool :=
  match v with
  | PyClass _ _ | PyFunction _ _ | PyObj _ => true
  | _ => false
  end.

(** The module docstring (lines 1-5). *)
Definition __doc__ : string :=
  "Model loading and generation (Workstream 8).

Provides MLX-based text generation with template fallback,
RAG context injection, and few-shot prompt formatting.
".

(** The public export list (lines 12-21). *)
Definition __all__ : list string :=
  [ "MLXGenerator";
    "MLXModelLoader";
    "ModelConfig";
    "PromptBuilder";
    "ResponseTemplate";
    "SentenceModelError";
    "TemplateMatcher";
    "TemplateMatch" ].

Section Model.
(** The collaborators are outside this package initialiser: their state is
    an abstract type [Ext] and the exceptions they raise an abstract type
    [exn]. *)
Context {Ext exn : Type}.

(** Exceptions seen by a caller: the interpreter's own, or one raised by a
    collaborator, carried as it was raised. *)
Inductive exception : Type :=
  | NameError (name : string)
  | ModuleNotFoundError (module : string)
  | ImportError (module : string) (name : string)
  | TypeError_not_callable (v : pyval)         (* [v()] *)
  | TypeError_unsupported_operand (v : pyval)  (* [v | None], [v[k] = x] *)
  | Collaborator (e : exn).

Inductive result (A : Type) : Type :=
  | Return (a : A)
  | Raise (e : exception).
Global Arguments Return {A} a.
Global Arguments Raise {A} e.

(** The state of one Python process, as far as this module sees it.  The
    fields [instances] and [ctor_calls] are bookkeeping: no Python code reads
    them, they record what the constructor has done so that the claims about
    object identity and construction count can be stated. *)
Record Process : Type := mkProcess {
  globals : gmap string pyval;      (* the namespace of package [models] *)
  sys_modules : gmap string (gmap string pyval);
                                     (* namespaces of the collaborator modules *)
  instances : list ref;             (* generator objects constructed so far,
                                        the newest first *)
  ctor_calls : nat;                 (* invocations of the constructor so far *)
  world : Ext                       (* state owned by the collaborators *)
}.

Definition set_globals (g : gmap string pyval) (p : Process) : Process :=
  mkProcess g (sys_modules p) (instances p) (ctor_calls p) (world p).

Definition set_world (w : Ext) (p : Process) : Process :=
  mkProcess (globals p) (sys_modules p) (instances p) (ctor_calls p) w.

(** Computations: state passing, with the state kept when an exception is
    raised (Python does not roll anything back). *)
Definition M (A : Type) : Type := Process → result A * Process.

Global Instance M_ret : MRet M := λ A a p, (Return a, p).
Global Instance M_bind : MBind M := λ A B k m p,
  match m p with
  | (Return a, p') => k a p'
  | (Raise e, p') => (Raise e, p')
  end.

Definition raise {A} (e : exception) : M A := λ p, (Raise e, p).

(** Reading a global name; an unbound name raises [NameError]. *)
Definition load_global (name : string) : M pyval := λ p,
  match globals p !! name with
  | Some v => (Return v, p)
  | None => (Raise (NameError name), p)
  end.

(** Binding a global name. *)
Definition store_global (name : string) (v : pyval) : M unit := λ p,
  (Return (), set_globals (<[name := v]> (globals p)) p).

(** ** The collaborator's constructor *)

(** The body of the generator's constructor lives in [models/generator.py],
    which is not part of this fragment, so it is a parameter of the model:
    it acts on the collaborators' state and either completes or raises (for
    example on a model-loading failure).  It has no access to the namespace
    of this package. *)
Variable MLXGenerator_init : Ext → Ext * option exn.

(** The generator class called with no arguments: one more constructor
    invocation; when the body completes, a new object with a fresh identity
    is returned.  Which object the name [MLXGenerator] holds when the call
    is made is the business of [call] below. *)
Definition MLXGenerator : M pyval := λ p,
  let p1 := mkProcess (globals p) (sys_modules p) (instances p)
                      (S (ctor_calls p)) (world p) in
  match MLXGenerator_init (world p1) with
  | (w, Some e) => (Raise (Collaborator e), set_world w p1)
  | (w, None) =>
      let r := fresh (instances p1) in
      (Return (PyObj r),
       mkProcess (globals p1) (sys_modules p1) (r :: instances p1)
                 (ctor_calls p1) w)
  end.

(** The call [callee()] of line 35: what the global name holds is called.
    For a value that can be called, what runs is the collaborators' code,
    the constructor above. *)
Definition call (callee : pyval) : M pyval :=
  if callable callee
  then MLXGenerator
  else raise (TypeError_not_callable callee).

(** ** [get_generator] (lines 27-36) *)

Definition get_generator : M pyval :=
  g ← load_global "_generator";
  (if is_None g
   then callee ← load_global "MLXGenerator";
        obj ← call callee;
        store_global "_generator" obj
   else mret ());;
  load_global "_generator".

(** ** The module body (lines 1-36), run when the package is imported *)

(** The collaborator modules are outside this fragment.  The ones the
    interpreter has loaded are in [sys_modules], and importing one of them
    is a lookup of its namespace, as it is in Python for a module already
    loaded; a module that is not there is taken as one that cannot be
    found. *)
Definition find_module (module : string) : M (gmap string pyval) := λ p,
  match sys_modules p !! module with
  | Some ns => (Return ns, p)
  | None => (Raise (ModuleNotFoundError module), p)
  end.

(** One name of a [from ... import] list: the attribute is read from the
    collaborator's namespace [ns] and bound under the same name. *)
Definition import_name (module : string) (ns : gmap string pyval)
    (name : string) : M unit :=
  match ns !! name with
  | Some v => store_global name v
  | None => raise (ImportError module name)
  end.

Fixpoint import_names (module : string) (ns : gmap string pyval)
    (names : list string) : M unit :=
  match names with
  | [] => mret ()
  | name :: rest => import_name module ns name;; import_names module ns rest
  end.

(** [from package.submodule import names].  Loading a submodule also binds
    it, under its short name, in the namespace of the parent package. *)
Definition import_from (package submodule : string) (names : list string)
    : M unit :=
  let module := package +:+ "." +:+ submodule in
  ns ← find_module module;
  store_global submodule (PyModule module);;
  import_names module ns names.

(** A module with an annotated assignment starts by making sure that
    [__annotations__] is bound to a dict. *)
Definition setup_annotations : M unit := λ p,
  match globals p !! "__annotations__" with
  | Some _ => (Return (), p)
  | None => store_global "__annotations__" (PyDict []) p
  end.

(** [v | None], the annotation of line 24: a class gives a union type, any
    other value of the model raises [TypeError]. *)
Definition union_with_None (v : pyval) : M unit :=
  if is_class v then mret () else raise (TypeError_unsupported_operand v).

(** [__annotations__[name] = ...] *)
Definition annotate (name : string) : M unit :=
  d ← load_global "__annotations__";
  match d with
  | PyDict keys =>
      store_global "__annotations__"
        (PyDict (if bool_decide (name ∈ keys) then keys else keys ++ [name]))
  | _ => raise (TypeError_unsupported_operand d)
  end.

(** The statements of the module, in order, as Python 3.10 to 3.13 run them:
    the docstring, the four imports, the export list, the annotated
    assignment of line 24 (the cached reference is set to [None], then the
    annotation [MLXGenerator | None] is evaluated and recorded) and the
    definition of [get_generator], which binds the function and does not
    run it. *)
Definition module_body : M unit :=
  setup_annotations;;
  store_global "__doc__" (PyStr __doc__);;
  import_from "models" "generator" ["MLXGenerator"];;
  import_from "models" "loader" ["MLXModelLoader"; "ModelConfig"];;
  import_from "models" "prompt_builder" ["PromptBuilder"];;
  import_from "models" "templates"
    ["ResponseTemplate"; "TemplateMatcher"; "TemplateMatch";
     "SentenceModelError"];;
  store_global "__all__" (PyStrList __all__);;
  store_global "_generator" PyNone;;
  (cls ← load_global "MLXGenerator"; union_with_None cls);;
  annotate "_generator";;
  store_global "get_generator" (PyFunction "get_generator" []).

(** ** The life cycle of the cached reference *)

(** The process-wide optional state: what the global [_generator] holds. *)
Definition cached (p : Process) : option pyval := globals p !! "_generator".

Inductive lifecycle : Type := Uninitialized | Initialized.

Definition lifecycle_of (p : Process) : option lifecycle :=
  match cached p with
  | Some PyNone => Some Uninitialized
  | Some (PyObj _) => Some Initialized
  | _ => None
  end.

(** The cached reference and the generator objects agree: nothing is cached
    and nothing was constructed, or the one object constructed is the one
    cached. *)
Definition coherent (p : Process) : Prop :=
  match cached p with
  | Some PyNone => instances p = []
  | Some (PyObj r) => instances p = [r]
  | _ => False
  end.

(** Two states that differ at most in the package namespace. *)
Definition namespace_only (p p' : Process) : Prop :=
  sys_modules p' = sys_modules p ∧ instances p' = instances p ∧
  ctor_calls p' = ctor_calls p ∧ world p' = world p.

(** Two states that differ at most in the collaborators' state. *)
Definition world_only (p p' : Process) : Prop :=
  globals p' = globals p ∧ sys_modules p' = sys_modules p ∧
  instances p' = instances p ∧ ctor_calls p' = ctor_calls p.

(** A computation that touches nothing but the package namespace, whether
    it returns or raises. *)
Definition frames {A} (m : M A) : Prop :=
  ∀ p, namespace_only p (m p).2.

(** The name [MLXGenerator] is bound to a class, as the import leaves it. *)
Definition class_bound (p : Process) : Prop :=
  ∃ callee, globals p !! "MLXGenerator" = Some callee ∧ is_class callee = true.

(** The ways a call can go, by the cached value, by what the name
    [MLXGenerator] holds and by the constructor. *)
Inductive call_spec (p : Process) : result pyval → Process → Prop :=
  | call_unbound :
      cached p = None →
      call_spec p (Raise (NameError "_generator")) p
  | call_read (v : pyval) :
      cached p = Some v → is_None v = false →
      call_spec p (Return v) p
  | call_no_callee :
      cached p = Some PyNone → globals p !! "MLXGenerator" = None →
      call_spec p (Raise (NameError "MLXGenerator")) p
  | call_not_callable (callee : pyval) :
      cached p = Some PyNone → globals p !! "MLXGenerator" = Some callee →
      callable callee = false →
      call_spec p (Raise (TypeError_not_callable callee)) p
  | call_construct (w : Ext) (callee : pyval) :
      cached p = Some PyNone → globals p !! "MLXGenerator" = Some callee →
      callable callee = true → MLXGenerator_init (world p) = (w, None) →
      call_spec p (Return (PyObj (fresh (instances p))))
        (mkProcess (<["_generator" := PyObj (fresh (instances p))]> (globals p))
                   (sys_modules p) (fresh (instances p) :: instances p)
                   (S (ctor_calls p)) w)
  | call_fail (w : Ext) (e : exn) (callee : pyval) :
      cached p = Some PyNone → globals p !! "MLXGenerator" = Some callee →
      callable callee = true → MLXGenerator_init (world p) = (w, Some e) →
      call_spec p (Raise (Collaborator e))
        (mkProcess (globals p) (sys_modules p) (instances p)
                   (S (ctor_calls p)) w).

(** ** Single-threaded clients *)

(** What the rest of the process does, one step after the other: it calls
    the accessor (and goes on whether the call returned or raised), or it
    runs other code, which changes the collaborators' state and nothing of
    this package: there is no reset of the cached reference. *)
Inductive action : Type :=
  | Call
  | Elsewhere (f : Ext → Ext).

Definition perform (a : action) (p : Process) : Process :=
  match a with
  | Call => (get_generator p).2
  | Elsewhere f => set_world (f (world p)) p
  end.

(** The state after a sequence of actions. *)
Fixpoint final (acts : list action) (p : Process) : Process :=
  match acts with
  | [] => p
  | a :: rest => final rest (perform a p)
  end.

(** One entry per call of the accessor, in order. *)
Record call_record : Type := mkCall {
  before : Process;
  outcome : result pyval;
  after : Process
}.

Fixpoint history (acts : list action) (p : Process) : list call_record :=
  match acts with
  | [] => []
  | Call :: rest =>
      mkCall p (get_generator p).1 (get_generator p).2
        :: history rest (perform Call p)
  | Elsewhere f :: rest => history rest (perform (Elsewhere f) p)
  end.

Definition returned (c : call_record) : bool :=
  match outcome c with Return _ => true | Raise _ => false end.

(** The call invoked the constructor. *)
Definition constructs (c : call_record) : bool :=
  negb (Nat.eqb (ctor_calls (after c)) (ctor_calls (before c))).

(** The call changed the cached reference. *)
Definition mutates (c : call_record) : bool :=
  bool_decide (cached (after c) ≠ cached (before c)).

(** A client's [from models import name]: the attribute is read from the
    package namespace; a name that is not there raises [ImportError]. *)
Definition from_models_import (name : string) : M pyval := λ p,
  match globals p !! name with
  | Some v => (Return v, p)
  | None => (Raise (ImportError "models" name), p)
  end.

(** Process start: the package is not imported yet, its namespace is empty
    (the attributes the interpreter keeps on every module, such as
    [__name__], are left out) and no generator has been constructed. *)
Definition boot (modules : gmap string (gmap string pyval)) (w : Ext)
    : Process :=
  mkProcess ∅ modules [] 0 w.

End Model.

Arguments exception : clear implicits.
Arguments result : clear implicits.
Arguments Process : clear implicits.
Arguments action : clear implicits.
Arguments call_record : clear implicits.

(** ** Reading the package from outside *)

(** A public name: one that does not start with an underscore. *)
Definition public (name : string) : bool :=
  match name with
  | String "_"%char _ => false
  | _ => true
  end.

(** What a star-import can fail with: a listed name that is not an attribute
    of the package, or an export list that cannot be iterated. *)
Inductive star_error : Type :=
  | AttributeError (name : string)
  | TypeError.

(** The attributes of the listed names, read in order; the first name that
    is not bound stops the import. *)
Fixpoint read_attributes (g : gmap string pyval) (names : list string)
    : star_error + gmap string pyval :=
  match names with
  | [] => inr ∅
  | name :: rest =>
      match g !! name with
      | None => inl (AttributeError name)
      | Some v =>
          match read_attributes g rest with
          | inl e => inl e
          | inr m => inr (<[name := v]> m)
          end
      end
  end.

(** A client's [from models import *]: the names the importer gets.  With an
    export list in the namespace, they are the names it lists (a string is
    iterated character by character); without one, they are the public
    names of the namespace. *)
Definition import_star {Ext : Type} (p : Process Ext)
    : star_error + gmap string pyval :=
  match globals p !! "__all__" with
  | Some (PyStrList names) => read_attributes (globals p) names
  | Some (PyStr s) =>
      read_attributes (globals p)
        ((λ a, String a EmptyString) <$> String.list_ascii_of_string s)
  | Some _ => inl TypeError
  | None => inr (filter (λ kv, public kv.1 = true) (globals p))
  end.

(** ** What a computation leaves alone *)

Section Effects.
Context {Ext exn : Type}.

(** A name that is unbound stays unbound, however the computation ends. *)
Definition keeps_unbound {A} (name : string) (m : M (Ext:=Ext) (exn:=exn) A)
    : Prop :=
  ∀ p, globals p !! name = None → globals (m p).2 !! name = None.

(** A name that is unbound is still unbound when the computation raises. *)
Definition unbound_when_raising {A} (name : string)
    (m : M (Ext:=Ext) (exn:=exn) A) : Prop :=
  ∀ p e p', m p = (Raise e, p') →
            globals p !! name = None → globals p' !! name = None.

End Effects.

(** ** Concrete collaborators, for running the model *)

(** The four collaborator modules with the names the package imports. *)
Definition collaborators : gmap string (gmap string pyval) :=
  list_to_map
    [ ("models.generator",
        list_to_map [("MLXGenerator", PyClass "models.generator" "MLXGenerator")]);
      ("models.loader",
        list_to_map [("MLXModelLoader", PyClass "models.loader" "MLXModelLoader");
                     ("ModelConfig", PyClass "models.loader" "ModelConfig")]);
      ("models.prompt_builder",
        list_to_map [("PromptBuilder", PyClass "models.prompt_builder" "PromptBuilder")]);
      ("models.templates",
        list_to_map [("ResponseTemplate", PyClass "models.templates" "ResponseTemplate");
                     ("TemplateMatcher", PyClass "models.templates" "TemplateMatcher");
                     ("TemplateMatch", PyClass "models.templates" "TemplateMatch");
                     ("SentenceModelError", PyClass "models.templates" "SentenceModelError")]) ].

Inductive load_error : Type := WeightsMissing.

(** A constructor that always completes; the collaborators' state counts the
    model loads. *)
Definition reliable_init (loads : nat) : nat * option load_error :=
  (S loads, None).

(** A constructor whose first attempt fails (the weights are not there yet)
    and whose later attempts complete. *)
Definition flaky_init (attempts : nat) : nat * option load_error :=
  (S attempts, if Nat.eqb attempts 0 then Some WeightsMissing else None).

(** The process right after [import models]. *)
Definition imported : Process nat :=
  (module_body (exn:=load_error) (boot collaborators 0)).2.

(** A run in which the first construction fails, the caller catches the
    exception and asks again twice. *)
Definition failed_once : Process nat := perform flaky_init Call imported.
Definition loaded : Process nat := perform flaky_init Call failed_once.

Definition first_attempt : call_record nat load_error :=
  mkCall imported (Raise (Collaborator WeightsMissing)) failed_once.
Definition second_attempt : call_record nat load_error :=
  mkCall failed_once (Return (PyObj 0)) loaded.
Definition later_call : call_record nat load_error :=
  mkCall loaded (Return (PyObj 0)) loaded.

(** A run in which the first construction completes. *)
Definition warm : Process nat := perform reliable_init Call imported.

Definition first_call : call_record nat load_error :=
  mkCall imported (Return (PyObj 0)) warm.

(** A process in which no collaborator module is loaded, after the import
    was tried. *)
Definition import_failed : Process nat :=
  (module_body (exn:=load_error) (boot ∅ 0)).2.



(** The process [warm] after the module body has run once more. *)
Definition reloaded : Process nat :=
  (module_body (exn:=load_error) warm).2.

(** The imported process with a stand-in value put in the cache. *)
Definition seeded : Process nat :=
  (store_global (exn:=load_error) "_generator" (PyStr "stand-in") imported).2.

(** * Properties of the import *)

Section Importing.
Context {Ext exn : Type}.
Implicit Types (p q : Process Ext) (v : pyval).
Local Abbreviation M := (M (Ext:=Ext) (exn:=exn)).
Local Abbreviation frames m := (frames (Ext:=Ext) (exn:=exn) m).

(** ** Importing the package *)

Lemma bind_returns {A B} (m : M A) (k : A → M B) p (b : B) p' :
  (m ≫= k) p = (Return b, p') →
  ∃ a p1, m p = (Return (exn:=exn) a, p1) ∧ k a p1 = (Return b, p').
Proof.
  unfold mbind, M_bind. destruct (m p) as [[a|e] p1]; [|done].
  intros Hk. by exists a, p1.
Qed.

Lemma namespace_only_refl p : namespace_only p p.
Proof. done. Qed.

Lemma namespace_only_trans p1 p2 p3 :
  namespace_only p1 p2 → namespace_only p2 p3 → namespace_only p1 p3.
Proof.
  unfold namespace_only. intros (?&?&?&?) (?&?&?&?). repeat split; congruence.
Qed.

Lemma store_global_returns name v p (o : result exn ()) p' :
  store_global name v p = (o, p') →
  o = Return () ∧ namespace_only p p' ∧
  globals p' = <[name := v]> (globals p).
Proof. unfold store_global. intros [= <- <-]. done. Qed.

Lemma import_names_returns module ns names p p' :
  import_names (exn:=exn) module ns names p = (Return (), p') →
  namespace_only p p' ∧
  (∀ name, name ∈ names → is_Some (ns !! name)) ∧
  (∀ name, globals p' !! name
           = if decide (name ∈ names) then ns !! name else globals p !! name).
Proof.
  revert p. induction names as [|n names IH]; intros p Hret; simpl in Hret.
  - injection Hret as <-. split; [done|].
    split; [by intros ? ?%elem_of_nil|].
    intros name. by rewrite decide_False by apply not_elem_of_nil.
  - apply bind_returns in Hret as ([] & p1 & Hn & Hrest).
    unfold import_name in Hn. destruct (ns !! n) as [v|] eqn:Hv; [|done].
    apply store_global_returns in Hn as (_ & Hf1 & Hg1).
    destruct (IH _ Hrest) as (Hf & Hin & Hlook).
    split; [by eapply namespace_only_trans|]. split.
    + intros name [->|?]%elem_of_cons; [by rewrite Hv|by apply Hin].
    + intros name. rewrite Hlook, Hg1.
      destruct (decide (name ∈ names)) as [Hnames|Hnames].
      * rewrite decide_True by (by right). done.
      * destruct (decide (name = n)) as [->|Hne].
        -- rewrite decide_True by (by left). by rewrite lookup_insert_eq.
        -- rewrite decide_False by (by intros [?|?]%elem_of_cons).
           by rewrite lookup_insert_ne.
Qed.

Lemma import_from_returns package submodule names p p' :
  import_from (exn:=exn) package submodule names p = (Return (), p') →
  ∃ ns,
    sys_modules p !! (package +:+ "." +:+ submodule) = Some ns ∧
    namespace_only p p' ∧
    (∀ name, name ∈ names → is_Some (ns !! name)) ∧
    (∀ name, globals p' !! name
             = if decide (name ∈ names) then ns !! name
               else if decide (submodule = name)
                    then Some (PyModule (package +:+ "." +:+ submodule))
                    else globals p !! name).
Proof.
  unfold import_from.
  intros (ns & p1 & Hfind & ([] & p2 & Hsub & Hnames)%bind_returns)%bind_returns.
  unfold find_module in Hfind.
  destruct (sys_modules p !! _) as [ns'|] eqn:Hmod; [|done].
  injection Hfind as -> ->.
  apply store_global_returns in Hsub as (_ & Hf1 & Hg1).
  apply import_names_returns in Hnames as (Hf2 & Hin & Hlook).
  exists ns. split; [done|]. split; [by eapply namespace_only_trans|].
  split; [done|]. intros name. by rewrite Hlook, Hg1, lookup_insert.
Qed.

Lemma setup_annotations_returns p (o : result exn ()) p' :
  setup_annotations p = (o, p') →
  o = Return () ∧ namespace_only p p' ∧
  (∀ name, "__annotations__" ≠ name → globals p' !! name = globals p !! name).
Proof.
  unfold setup_annotations. destruct (globals p !! "__annotations__").
  - by intros [= <- <-].
  - intros (-> & Hf & Hg)%store_global_returns.
    split; [done|]. split; [done|].
    intros name Hne. by rewrite Hg, lookup_insert_ne.
Qed.

Lemma annotation_returns p p' :
  (cls ← load_global "MLXGenerator"; union_with_None cls) p
  = (Return (exn:=exn) (), p') →
  p' = p ∧ class_bound p.
Proof.
  intros (cls & p1 & Hl & Hu)%bind_returns. unfold load_global in Hl.
  destruct (globals p !! "MLXGenerator") as [callee|] eqn:Hcallee; [|done].
  injection Hl as -> ->. unfold union_with_None in Hu.
  destruct (is_class cls) eqn:Hcls; [|done]. injection Hu as <-.
  split; [done|]. by exists cls.
Qed.

Lemma annotate_returns name p p' :
  annotate name p = (Return (exn:=exn) (), p') →
  namespace_only p p' ∧
  ∃ keys, globals p' = <["__annotations__" := PyDict keys]> (globals p).
Proof.
  intros (d & p1 & Hl & Hs)%bind_returns. unfold load_global in Hl.
  destruct (globals p !! "__annotations__") as [d'|]; [|done].
  injection Hl as -> ->. destruct d; try done.
  apply store_global_returns in Hs as (_ & Hf & Hg). eauto.
Qed.

(** The namespace after a successful import, name by name: the last binding
    of a name wins. *)
Lemma module_body_returns p p' :
  module_body (exn:=exn) p = (Return (), p') →
  ∃ ns_g ns_l ns_p ns_t,
    sys_modules p !! "models.generator" = Some ns_g ∧
    sys_modules p !! "models.loader" = Some ns_l ∧
    sys_modules p !! "models.prompt_builder" = Some ns_p ∧
    sys_modules p !! "models.templates" = Some ns_t ∧
    namespace_only p p' ∧
    (∀ name, name ∈ ["MLXGenerator"] → is_Some (ns_g !! name)) ∧
    (∀ name, name ∈ ["MLXModelLoader"; "ModelConfig"] → is_Some (ns_l !! name)) ∧
    (∀ name, name ∈ ["PromptBuilder"] → is_Some (ns_p !! name)) ∧
    (∀ name, name ∈ ["ResponseTemplate"; "TemplateMatcher"; "TemplateMatch";
                     "SentenceModelError"] → is_Some (ns_t !! name)) ∧
    (∀ name, "__annotations__" ≠ name → globals p' !! name =
       if decide ("get_generator" = name)
       then Some (PyFunction "get_generator" [])
       else if decide ("_generator" = name) then Some PyNone
       else if decide ("__all__" = name) then Some (PyStrList __all__)
       else if decide (name ∈ ["ResponseTemplate"; "TemplateMatcher";
                               "TemplateMatch"; "SentenceModelError"])
       then ns_t !! name
       else if decide ("templates" = name)
       then Some (PyModule "models.templates")
       else if decide (name ∈ ["PromptBuilder"]) then ns_p !! name
       else if decide ("prompt_builder" = name)
       then Some (PyModule "models.prompt_builder")
       else if decide (name ∈ ["MLXModelLoader"; "ModelConfig"])
       then ns_l !! name
       else if decide ("loader" = name)
       then Some (PyModule "models.loader")
       else if decide (name ∈ ["MLXGenerator"]) then ns_g !! name
       else if decide ("generator" = name)
       then Some (PyModule "models.generator")
       else if decide ("__doc__" = name) then Some (PyStr __doc__)
       else globals p !! name) ∧
    (∃ keys, globals p' !! "__annotations__" = Some (PyDict keys)) ∧
    class_bound p'.
Proof.
  unfold module_body.
  intros ([] & p0 & H0 & ([] & p1 & H1 & ([] & p2 & H2 & ([] & p3 & H3 &
    ([] & p4 & H4 & ([] & p5 & H5 & ([] & p6 & H6 & ([] & p7 & H7 &
    ([] & p8 & H8 & ([] & p9 & H9 & H10)%bind_returns)%bind_returns
    )%bind_returns)%bind_returns)%bind_returns)%bind_returns
    )%bind_returns)%bind_returns)%bind_returns)%bind_returns.
  apply setup_annotations_returns in H0 as (_ & F0 & G0).
  apply store_global_returns in H1 as (_ & F1 & G1).
  apply import_from_returns in H2 as (ns_g & M2 & F2 & I2 & G2).
  apply import_from_returns in H3 as (ns_l & M3 & F3 & I3 & G3).
  apply import_from_returns in H4 as (ns_p & M4 & F4 & I4 & G4).
  apply import_from_returns in H5 as (ns_t & M5 & F5 & I5 & G5).
  apply store_global_returns in H6 as (_ & F6 & G6).
  apply store_global_returns in H7 as (_ & F7 & G7).
  apply annotation_returns in H8 as (-> & callee & Hcallee & Hcls).
  apply annotate_returns in H9 as (F9 & keys & G9).
  apply store_global_returns in H10 as (_ & F10 & G10).
  simpl in M2, M3, M4, M5, G2, G3, G4, G5.
  pose proof (namespace_only_trans _ _ _ F0 F1) as F01.
  pose proof (namespace_only_trans _ _ _ F01 F2) as F02.
  pose proof (namespace_only_trans _ _ _ F02 F3) as F03.
  pose proof (namespace_only_trans _ _ _ F03 F4) as F04.
  pose proof (namespace_only_trans _ _ _ F04 F5) as F05.
  pose proof (namespace_only_trans _ _ _ F05 F6) as F06.
  pose proof (namespace_only_trans _ _ _ F06 F7) as F07.
  pose proof (namespace_only_trans _ _ _ F07 F9) as F09.
  pose proof (namespace_only_trans _ _ _ F09 F10) as F010.
  exists ns_g, ns_l, ns_p, ns_t.
  destruct F01 as (S1 & _), F02 as (S2 & _), F03 as (S3 & _), F04 as (S4 & _).
  rewrite S1 in M2. rewrite S2 in M3. rewrite S3 in M4. rewrite S4 in M5.
  repeat (split; [done|]). split; [|split].
  - intros name Hne.
    rewrite G10, lookup_insert, G9, (lookup_insert_ne _ _ _ _ Hne), G7,
      lookup_insert, G6, lookup_insert, G5, G4, G3, G2, G1, lookup_insert.
    by rewrite G0.
  - exists keys. rewrite G10, lookup_insert_ne, G9 by done.
    by rewrite lookup_insert_eq.
  - exists callee. split; [|done].
    by rewrite G10, lookup_insert_ne, G9, lookup_insert_ne by done.
Qed.

(** After a successful import from process start nothing is cached and no
    constructor has run. *)
Lemma imported_state modules w p :
  module_body (exn:=exn) (boot modules w) = (Return (), p) →
  cached p = Some PyNone ∧ instances p = [] ∧ ctor_calls p = 0.
Proof.
  intros (?&?&?&?&_&_&_&_& (_ & Hi & Hc & _) &_&_&_&_& Hlook & _)%module_body_returns.
  unfold cached. rewrite Hlook by done.
  rewrite decide_False by done. rewrite decide_True by done. done.
Qed.

Lemma imported_class_bound p p' :
  module_body (exn:=exn) p = (Return (), p') → class_bound p'.
Proof.
  by intros (?&?&?&?&_&_&_&_&_&_&_&_&_&_&_& Hcls)%module_body_returns.
Qed.

(** Whether it returns or raises, the module body touches nothing but the
    package namespace. *)
Lemma frames_ret {A} (a : A) : frames (mret a).
Proof. by intros p. Qed.

Lemma frames_raise {A} (e : exception exn) : frames (raise (A:=A) e).
Proof. by intros p. Qed.

Lemma frames_bind {A B} (m : M A) (k : A → M B) :
  frames m → (∀ a, frames (k a)) → frames (m ≫= k).
Proof.
  intros Hm Hk p. unfold mbind, M_bind. specialize (Hm p).
  destruct (m p) as [[a|e] p1]; simpl in *; [|done].
  eapply namespace_only_trans; [done|apply Hk].
Qed.

Lemma frames_store_global name v : frames (store_global name v).
Proof. by intros p. Qed.

Lemma frames_find_module module : frames (find_module module).
Proof. intros p. unfold find_module. by destruct (_ !! _). Qed.

Lemma frames_import_names module ns names :
  frames (import_names module ns names).
Proof.
  induction names as [|n names IH]; simpl; [apply frames_ret|].
  apply frames_bind; [|done]. unfold import_name.
  destruct (ns !! n); [apply frames_store_global|apply frames_raise].
Qed.

Lemma frames_import_from package submodule names :
  frames (import_from package submodule names).
Proof.
  unfold import_from. apply frames_bind; [apply frames_find_module|].
  intros ns. apply frames_bind; [apply frames_store_global|].
  intros _. apply frames_import_names.
Qed.

Lemma frames_setup_annotations : frames setup_annotations.
Proof.
  intros p. unfold setup_annotations.
  by destruct (globals p !! "__annotations__").
Qed.

Lemma frames_load_global name : frames (load_global name).
Proof. intros p. unfold load_global. by destruct (globals p !! name). Qed.

Lemma frames_union_with_None v : frames (union_with_None v).
Proof. intros p. unfold union_with_None. by destruct (is_class v). Qed.

Lemma frames_annotate name : frames (annotate name).
Proof.
  unfold annotate. apply frames_bind; [apply frames_load_global|].
  intros d. destruct d;
    first [apply frames_store_global | apply frames_raise].
Qed.

Lemma frames_module_body : frames module_body.
Proof.
  unfold module_body.
  repeat (apply frames_bind;
          [first [apply frames_store_global | apply frames_import_from
                 | apply frames_setup_annotations | apply frames_annotate
                 | apply frames_bind;
                   [apply frames_load_global
                   |intros cls; apply frames_union_with_None]]
          |intros _]).
  apply frames_store_global.
Qed.

(** ** The claim about the namespace *)

(** C8. Re-export completeness: after a successful import of the package,
    every name of the export list can be imported from the package, and
    what is imported is the collaborator's attribute of that name;
    [get_generator] can be imported too, it is not in the export list, and
    it is the only function in the package namespace that is not one of
    the re-exports; it takes no parameters. *)
Theorem reexport_completeness modules w p :
  module_body (exn:=exn) (boot modules w) = (Return (), p) →
  (∀ name, name ∈ __all__ →
     ∃ module ns v,
       modules !! module = Some ns ∧ ns !! name = Some v ∧
       from_models_import (exn:=exn) name p = (Return v, p)) ∧
  from_models_import (exn:=exn) "get_generator" p
  = (Return (PyFunction "get_generator" []), p) ∧
  ("get_generator" ∉ __all__) ∧
  (∀ name v,
     name ∉ __all__ → globals p !! name = Some v → is_function v = true →
     name = "get_generator" ∧ v = PyFunction "get_generator" []).
Proof.
  intros (ns_g & ns_l & ns_p & ns_t & Mg & Ml & Mp & Mt & _ &
          Ig & Il & Ip & It & Hlook & (keys & Hann) & _)%module_body_returns.
  simpl in Mg, Ml, Mp, Mt.
  assert (∀ name v, globals p !! name = Some v →
                    from_models_import (exn:=exn) name p = (Return v, p))
    as Himp by (intros name v Hv; unfold from_models_import; by rewrite Hv).
  split; [|split; [|split]].
  - intros name Hin. unfold __all__ in Hin.
    repeat (apply elem_of_cons in Hin as [->|Hin]);
      [..|by apply elem_of_nil in Hin].
    + destruct (Ig "MLXGenerator") as [v Hv]; [set_solver|].
      exists "models.generator", ns_g, v. repeat split; [done..|].
      apply Himp. by rewrite Hlook by done.
    + destruct (Il "MLXModelLoader") as [v Hv]; [set_solver|].
      exists "models.loader", ns_l, v. repeat split; [done..|].
      apply Himp. by rewrite Hlook by done.
    + destruct (Il "ModelConfig") as [v Hv]; [set_solver|].
      exists "models.loader", ns_l, v. repeat split; [done..|].
      apply Himp. by rewrite Hlook by done.
    + destruct (Ip "PromptBuilder") as [v Hv]; [set_solver|].
      exists "models.prompt_builder", ns_p, v. repeat split; [done..|].
      apply Himp. by rewrite Hlook by done.
    + destruct (It "ResponseTemplate") as [v Hv]; [set_solver|].
      exists "models.templates", ns_t, v. repeat split; [done..|].
      apply Himp. by rewrite Hlook by done.
    + destruct (It "SentenceModelError") as [v Hv]; [set_solver|].
      exists "models.templates", ns_t, v. repeat split; [done..|].
      apply Himp. by rewrite Hlook by done.
    + destruct (It "TemplateMatcher") as [v Hv]; [set_solver|].
      exists "models.templates", ns_t, v. repeat split; [done..|].
      apply Himp. by rewrite Hlook by done.
    + destruct (It "TemplateMatch") as [v Hv]; [set_solver|].
      exists "models.templates", ns_t, v. repeat split; [done..|].
      apply Himp. by rewrite Hlook by done.
  - apply Himp. by rewrite Hlook by done.
  - intros Hin. unfold __all__ in Hin.
    repeat (apply elem_of_cons in Hin as [?|Hin]; [discriminate|]).
    by apply elem_of_nil in Hin.
  - intros name v Hnot Hv Hfun.
    destruct (decide ("__annotations__" = name)) as [<-|Hne];
      [rewrite Hann in Hv; by injection Hv as <-|].
    rewrite Hlook in Hv by done.
    assert (∀ names, name ∈ names → names ⊆ __all__ → False) as Hre
      by (intros names Hin Hsub; by apply Hnot, Hsub).
    assert (∀ v', Some v' = Some v → is_function v' = false → False)
      as Hother by (intros v' [= ->]; congruence).
    destruct (decide ("get_generator" = name)) as [<-|_];
      [by injection Hv as <-|].
    repeat match type of Hv with
           | context [decide (?k = name)] =>
               destruct (decide (k = name)) as [_|_];
               [exfalso; by eapply Hother|]
           | context [decide (name ∈ ?names)] =>
               destruct (decide (name ∈ names)) as [Hin|_];
               [exfalso; apply (Hre _ Hin); unfold __all__;
                intros x; rewrite !elem_of_cons; tauto|]
           end.
    simpl in Hv. by rewrite lookup_empty in Hv.
Qed.

(** ** When the import fails *)

Local Abbreviation keeps_unbound name m :=
  (keeps_unbound (Ext:=Ext) (exn:=exn) name m).
Local Abbreviation unbound_when_raising name m :=
  (unbound_when_raising (Ext:=Ext) (exn:=exn) name m).

Ltac here_or_further := simpl; repeat first [by left | right].

Ltac not_listed H :=
  simpl in H;
  repeat (apply elem_of_cons in H as [?|H]; [discriminate|]);
  by apply elem_of_nil in H.

Lemma bind_raises {A B} (m : M A) (k : A → M B) p (e : exception exn) p' :
  (m ≫= k) p = (Raise e, p') →
  m p = (Raise e, p') ∨
  ∃ a p1, m p = (Return a, p1) ∧ k a p1 = (Raise e, p').
Proof.
  unfold mbind, M_bind. destruct (m p) as [[a|e1] p1]; [|intros [= -> ->]; by left].
  intros Hk. right. by exists a, p1.
Qed.



Lemma keeps_unbound_store name k v :
  name ≠ k → keeps_unbound name (store_global k v).
Proof. intros Hne p Hp. simpl. by rewrite lookup_insert_ne. Qed.

Lemma keeps_unbound_bind {A B} name (m : M A) (k : A → M B) :
  keeps_unbound name m → (∀ a, keeps_unbound name (k a)) →
  keeps_unbound name (m ≫= k).
Proof.
  intros Hm Hk p Hp. unfold mbind, M_bind. specialize (Hm p Hp).
  destruct (m p) as [[a|e] p1]; simpl in *; [by apply Hk|done].
Qed.

Lemma keeps_unbound_load_global name k : keeps_unbound name (load_global k).
Proof. intros p Hp. unfold load_global. by destruct (globals p !! k). Qed.

Lemma keeps_unbound_setup_annotations name :
  name ≠ "__annotations__" → keeps_unbound name setup_annotations.
Proof.
  intros Hne p Hp. unfold setup_annotations.
  destruct (globals p !! "__annotations__"); [done|].
  by apply keeps_unbound_store.
Qed.

Lemma keeps_unbound_annotation name :
  keeps_unbound name (cls ← load_global "MLXGenerator"; union_with_None cls).
Proof.
  apply keeps_unbound_bind; [apply keeps_unbound_load_global|].
  intros cls p Hp. unfold union_with_None. by destruct (is_class cls).
Qed.

Lemma keeps_unbound_annotate name k :
  name ≠ "__annotations__" → keeps_unbound name (annotate k).
Proof.
  intros Hne. unfold annotate.
  apply keeps_unbound_bind; [apply keeps_unbound_load_global|].
  intros d. destruct d; first [by apply keeps_unbound_store | by intros p].
Qed.

Lemma keeps_unbound_import_names name module ns names :
  name ∉ names → keeps_unbound name (import_names module ns names).
Proof.
  induction names as [|n names IH]; intros Hn; simpl; [by intros p|].
  apply not_elem_of_cons in Hn as [Hne Hn].
  apply keeps_unbound_bind; [|intros _; by apply IH].
  unfold import_name. destruct (ns !! n); [by apply keeps_unbound_store|].
  by intros p.
Qed.

Lemma keeps_unbound_import_from name package submodule names :
  name ∉ names → name ≠ submodule →
  keeps_unbound name (import_from package submodule names).
Proof.
  intros Hn Hne. unfold import_from. apply keeps_unbound_bind.
  - intros p Hp. unfold find_module. by destruct (sys_modules p !! _).
  - intros ns. apply keeps_unbound_bind; [by apply keeps_unbound_store|].
    intros _. by apply keeps_unbound_import_names.
Qed.

Lemma unbound_when_raising_bind {A B} name (m : M A) (k : A → M B) :
  keeps_unbound name m → (∀ a, unbound_when_raising name (k a)) →
  unbound_when_raising name (m ≫= k).
Proof.
  intros Hm Hk p e p' [Hr|(a & p1 & Hr & Hka)]%bind_raises Hp.
  - specialize (Hm p Hp). by rewrite Hr in Hm.
  - specialize (Hm p Hp). rewrite Hr in Hm. by eapply Hk.
Qed.

(** The definition of [get_generator] is the last statement of the module
    and cannot fail: whenever the module body raises, no statement before
    it has bound the name. *)
Lemma module_body_unbound_when_raising :
  unbound_when_raising "get_generator" module_body.
Proof.
  unfold module_body.
  apply unbound_when_raising_bind;
    [by apply keeps_unbound_setup_annotations|intros _].
  apply unbound_when_raising_bind;
    [by apply keeps_unbound_store|intros _].
  do 4 (apply unbound_when_raising_bind;
        [apply keeps_unbound_import_from;
         [intros Hin; not_listed Hin|done]
        |intros _]).
  do 2 (apply unbound_when_raising_bind;
        [by apply keeps_unbound_store|intros _]).
  apply unbound_when_raising_bind;
    [by apply keeps_unbound_annotation|intros _].
  apply unbound_when_raising_bind;
    [by apply keeps_unbound_annotate|intros _].
  by intros p e p'.
Qed.

(** X1. A failed import never defines the accessor: from process start,
    whenever the module body raises, whatever the exception and whichever
    statement raised it, [get_generator] is not bound in the package
    namespace. *)
Theorem failed_import_defines_no_accessor modules w (e : exception exn) p' :
  module_body (boot modules w) = (Raise e, p') →
  globals p' !! "get_generator" = None.
Proof.
  intros Hr. eapply module_body_unbound_when_raising; [exact Hr|].
  apply lookup_empty.
Qed.

(** ** When the imported name is not a class *)




(** After a successful import the export list is bound to the eight names
    and each of them is bound. *)
Lemma reexport_bindings modules w p :
  module_body (exn:=exn) (boot modules w) = (Return (), p) →
  globals p !! "__all__" = Some (PyStrList __all__) ∧
  (∀ name, name ∈ __all__ → is_Some (globals p !! name)).
Proof.
  intros (ns_g & ns_l & ns_p & ns_t & _ & _ & _ & _ & _ &
          Ig & Il & Ip & It & Hlook & _)%module_body_returns.
  split; [by rewrite Hlook by done|].
  intros name Hin. unfold __all__ in Hin.
  repeat (apply elem_of_cons in Hin as [->|Hin]);
    [..|by apply elem_of_nil in Hin]; rewrite Hlook by done; simpl;
    first [apply Ig | apply Il | apply Ip | apply It]; here_or_further.
Qed.

(** ** A star-import of the package *)

Lemma read_attributes_lookup g names m :
  read_attributes g names = inr m →
  ∀ name, m !! name = if decide (name ∈ names) then g !! name else None.
Proof.
  revert m. induction names as [|n names IH]; intros m Hm name; simpl in Hm.
  - injection Hm as <-. rewrite lookup_empty.
    by rewrite decide_False by apply not_elem_of_nil.
  - destruct (g !! n) as [v|] eqn:Hv; [|done].
    destruct (read_attributes g names) as [e|m0]; [done|].
    injection Hm as <-. rewrite lookup_insert, (IH m0 eq_refl).
    destruct (decide (n = name)) as [<-|Hne].
    + rewrite decide_True by (by left). done.
    + destruct (decide (name ∈ names)) as [Hin|Hin].
      * rewrite decide_True by (by right). done.
      * rewrite decide_False by (by intros [?|?]%elem_of_cons). done.
Qed.

Lemma read_attributes_bound g names :
  (∀ name, name ∈ names → is_Some (g !! name)) →
  ∃ m, read_attributes g names = inr m.
Proof.
  induction names as [|n names IH]; intros Hall; simpl; [by eexists|].
  destruct (Hall n) as [v ->]; [by left|].
  destruct IH as [m ->]; [intros name Hin; apply Hall; by right|].
  by eexists.
Qed.

(** X4. After a successful import a star-import of the package succeeds and
    brings the eight re-exports, each with the value it has in the package,
    and nothing else: neither [get_generator] nor the cached reference. *)
Theorem star_import_after_import modules w p :
  module_body (exn:=exn) (boot modules w) = (Return (), p) →
  ∃ m,
    import_star p = inr m ∧
    (∀ name, m !! name
             = if decide (name ∈ __all__) then globals p !! name else None) ∧
    (∀ name, name ∈ __all__ → is_Some (m !! name)) ∧
    m !! "get_generator" = None ∧
    m !! "_generator" = None.
Proof.
  intros Himp.
  destruct (reexport_bindings _ _ _ Himp) as [Hall Hbound].
  unfold import_star. rewrite Hall.
  destruct (read_attributes_bound (globals p) __all__ Hbound) as [m Hm].
  exists m. split; [done|].
  pose proof (read_attributes_lookup _ _ _ Hm) as Hlook.
  split; [done|]. split; [|split].
  - intros name Hin. rewrite Hlook, decide_True by done. by apply Hbound.
  - rewrite Hlook, decide_False; [done|].
    intros Hin. unfold __all__ in Hin. not_listed Hin.
  - rewrite Hlook, decide_False; [done|].
    intros Hin. unfold __all__ in Hin. not_listed Hin.
Qed.

End Importing.

(** * Properties of the accessor *)

Section Properties.
Context {Ext exn : Type} (init : Ext → Ext * option exn).
Implicit Types (p q : Process Ext) (v : pyval) (r : ref).
Implicit Types (acts : list (action Ext)) (c : call_record Ext exn).

(** ** One call of the accessor *)

Lemma MLXGenerator_completes p w :
  init (world p) = (w, None) →
  MLXGenerator init p
  = (Return (PyObj (fresh (instances p))),
     mkProcess (globals p) (sys_modules p)
               (fresh (instances p) :: instances p) (S (ctor_calls p)) w).
Proof. intros Hw. unfold MLXGenerator. simpl. by rewrite Hw. Qed.

Lemma MLXGenerator_raises p w e :
  init (world p) = (w, Some e) →
  MLXGenerator init p
  = (Raise (Collaborator e),
     mkProcess (globals p) (sys_modules p) (instances p)
               (S (ctor_calls p)) w).
Proof. intros Hw. unfold MLXGenerator. simpl. by rewrite Hw. Qed.

Lemma get_generator_unbound p :
  cached p = None →
  get_generator init p = (Raise (NameError "_generator"), p).
Proof.
  unfold cached. intros Hp.
  unfold get_generator, mbind, M_bind, load_global. by rewrite Hp.
Qed.

Lemma get_generator_present p v :
  cached p = Some v → is_None v = false →
  get_generator init p = (Return v, p).
Proof.
  unfold cached. intros Hp Hv.
  unfold get_generator, mbind, M_bind, load_global.
  rewrite Hp, Hv. unfold mret, M_ret. by rewrite Hp.
Qed.

Lemma get_generator_no_callee p :
  cached p = Some PyNone → globals p !! "MLXGenerator" = None →
  get_generator init p = (Raise (NameError "MLXGenerator"), p).
Proof.
  unfold cached. intros Hp Hcallee.
  unfold get_generator, mbind, M_bind, load_global.
  rewrite Hp. simpl. by rewrite Hcallee.
Qed.

Lemma get_generator_not_callable p callee :
  cached p = Some PyNone → globals p !! "MLXGenerator" = Some callee →
  callable callee = false →
  get_generator init p = (Raise (TypeError_not_callable callee), p).
Proof.
  unfold cached. intros Hp Hcallee Hcall.
  unfold get_generator, mbind, M_bind, load_global, call.
  rewrite Hp. simpl. by rewrite Hcallee, Hcall.
Qed.

Lemma get_generator_callable p callee :
  cached p = Some PyNone → globals p !! "MLXGenerator" = Some callee →
  callable callee = true →
  get_generator init p
  = match MLXGenerator init p with
    | (Return obj, p') =>
        (Return obj, set_globals (<["_generator" := obj]> (globals p')) p')
    | (Raise e, p') => (Raise e, p')
    end.
Proof.
  unfold cached. intros Hp Hcallee Hcall.
  unfold get_generator, mbind, M_bind, load_global, call.
  rewrite Hp. simpl. rewrite Hcallee, Hcall.
  destruct (MLXGenerator init p) as [[obj|e] p']; [|done].
  unfold store_global, set_globals. simpl. by rewrite lookup_insert_eq.
Qed.

Lemma class_bound_callable p :
  class_bound p →
  ∃ callee, globals p !! "MLXGenerator" = Some callee ∧
            callable callee = true.
Proof. intros (callee & Hcallee & Hcls). exists callee. by destruct callee. Qed.

Lemma get_generator_absent p :
  cached p = Some PyNone → class_bound p →
  get_generator init p
  = match MLXGenerator init p with
    | (Return obj, p') =>
        (Return obj, set_globals (<["_generator" := obj]> (globals p')) p')
    | (Raise e, p') => (Raise e, p')
    end.
Proof.
  intros Hp (callee & Hcallee & Hcall)%class_bound_callable.
  by eapply get_generator_callable.
Qed.

Lemma get_generator_absent_completes p w :
  cached p = Some PyNone → class_bound p → init (world p) = (w, None) →
  get_generator init p
  = (Return (PyObj (fresh (instances p))),
     mkProcess (<["_generator" := PyObj (fresh (instances p))]> (globals p))
               (sys_modules p) (fresh (instances p) :: instances p)
               (S (ctor_calls p)) w).
Proof.
  intros Hp Hcls Hw. rewrite get_generator_absent by done.
  by rewrite (MLXGenerator_completes _ _ Hw).
Qed.


Lemma get_generator_spec p :
  call_spec init p (get_generator init p).1 (get_generator init p).2.
Proof.
  destruct (cached p) as [v|] eqn:Hp.
  - destruct (is_None v) eqn:Hv.
    + destruct v; try discriminate.
      destruct (globals p !! "MLXGenerator") as [callee|] eqn:Hcallee.
      * destruct (callable callee) eqn:Hcall.
        -- rewrite (get_generator_callable _ _ Hp Hcallee Hcall).
           destruct (init (world p)) as [w [e|]] eqn:Hw.
           ++ rewrite (MLXGenerator_raises _ _ _ Hw). by eapply call_fail.
           ++ rewrite (MLXGenerator_completes _ _ Hw).
              unfold set_globals. simpl. by eapply call_construct.
        -- rewrite (get_generator_not_callable _ _ Hp Hcallee Hcall).
           by eapply call_not_callable.
      * rewrite (get_generator_no_callee _ Hp Hcallee).
        by apply call_no_callee.
    + rewrite (get_generator_present _ _ Hp Hv). by eapply call_read.
  - rewrite (get_generator_unbound _ Hp). by apply call_unbound.
Qed.

(** ** Sequences of actions *)

Lemma final_app acts1 acts2 p :
  final init (acts1 ++ acts2) p = final init acts2 (final init acts1 p).
Proof. revert p. induction acts1 as [|a acts1 IH]; intros p; simpl; auto. Qed.

Lemma history_app acts1 acts2 p :
  history init (acts1 ++ acts2) p
  = history init acts1 p ++ history init acts2 (final init acts1 p).
Proof.
  revert p. induction acts1 as [|[|f] acts1 IH]; intros p; simpl; auto.
  by rewrite IH.
Qed.

(** Every entry of the history is a call made from a state the client
    reached, and the entries before and after it are the histories of the
    actions before and after that call. *)
Lemma history_split acts p h1 c h2 :
  history init acts p = h1 ++ c :: h2 →
  ∃ acts1 acts2,
    acts = acts1 ++ Call :: acts2 ∧
    h1 = history init acts1 p ∧
    before c = final init acts1 p ∧
    outcome c = (get_generator init (before c)).1 ∧
    after c = (get_generator init (before c)).2 ∧
    h2 = history init acts2 (after c).
Proof.
  revert p h1. induction acts as [|[|f] acts IH]; intros p h1 Hh; simpl in Hh.
  - by destruct h1.
  - destruct h1 as [|c0 h1]; injection Hh as <- Hh.
    + by exists [], acts.
    + destruct (IH _ _ Hh) as (acts1 & acts2 & -> & -> & ? & ? & ? & ->).
      by exists (Call :: acts1), acts2.
  - destruct (IH _ _ Hh) as (acts1 & acts2 & -> & -> & ? & ? & ? & ->).
    by exists (Elsewhere f :: acts1), acts2.
Qed.

Lemma history_elem acts p c :
  c ∈ history init acts p →
  ∃ acts1 acts2,
    acts = acts1 ++ Call :: acts2 ∧
    before c = final init acts1 p ∧
    outcome c = (get_generator init (before c)).1 ∧
    after c = (get_generator init (before c)).2.
Proof.
  intros (h1 & h2 & Hh)%list_elem_of_split.
  destruct (history_split _ _ _ _ _ Hh) as (acts1 & acts2 & ? & _ & ? & ? & ? & _).
  by exists acts1, acts2.
Qed.

(** ** What a run preserves *)

(** Case analysis on the call made from [p], by [get_generator_spec]. *)
Ltac call_cases p :=
  let Hs := fresh "Hs" in
  pose proof (get_generator_spec p) as Hs;
  destruct (get_generator init p) as [? ?]; simpl in Hs |- *;
  inversion Hs as [Hc | ? Hc Hn | Hc Hcallee | ? Hc Hcallee Hcall
                  | ? ? Hc Hcallee Hcall Hw | ? ? ? Hc Hcallee Hcall Hw];
  subst; clear Hs; simpl.

(** A call that returns has cached what it returns, and that is not
    [None]. *)
Lemma returned_is_cached p v p' :
  get_generator init p = (Return v, p') →
  cached p' = Some v ∧ is_None v = false.
Proof.
  intros Hg. call_cases p; simplify_eq; try done.
  split; [|done]. unfold cached. simpl. by rewrite lookup_insert_eq.
Qed.

Lemma perform_footprint a p name :
  name ≠ "_generator" →
  globals (perform init a p) !! name = globals p !! name ∧
  sys_modules (perform init a p) = sys_modules p ∧
  (is_Some (cached (perform init a p)) ↔ is_Some (cached p)).
Proof.
  intros Hne. destruct a as [|f]; simpl; [|done].
  call_cases p; unfold cached in *; simpl; try done.
  rewrite lookup_insert_ne, lookup_insert_eq, Hc by done.
  repeat split; eauto.
Qed.

Lemma perform_class_bound a p :
  class_bound p → class_bound (perform init a p).
Proof.
  intros (callee & Hcallee & Hcls). exists callee. split; [|done].
  by rewrite (proj1 (perform_footprint a p "MLXGenerator" ltac:(done))).
Qed.

Lemma final_class_bound acts p :
  class_bound p → class_bound (final init acts p).
Proof.
  revert p. induction acts as [|a acts IH]; intros p Hp; simpl; [done|].
  by apply IH, perform_class_bound.
Qed.

Lemma perform_coherent a p : coherent p → coherent (perform init a p).
Proof.
  destruct a as [|f]; simpl; [|done].
  unfold coherent. intros Hp. call_cases p; try done.
  rewrite Hc in Hp. unfold cached. simpl. rewrite lookup_insert_eq.
  by rewrite Hp.
Qed.

Lemma final_coherent acts p : coherent p → coherent (final init acts p).
Proof.
  revert p. induction acts as [|a acts IH]; intros p Hp; simpl; [done|].
  by apply IH, perform_coherent.
Qed.

Lemma coherent_instances p : coherent p → (length (instances p) ≤ 1)%nat.
Proof.
  unfold coherent.
  destruct (cached p) as [[| r | | | | | |]|]; try done; intros ->; simpl; lia.
Qed.

Lemma world_only_refl p : world_only p p.
Proof. done. Qed.

Lemma world_only_trans p1 p2 p3 :
  world_only p1 p2 → world_only p2 p3 → world_only p1 p3.
Proof.
  unfold world_only. intros (?&?&?&?) (?&?&?&?). repeat split; congruence.
Qed.

Lemma world_only_cached p p' : world_only p p' → cached p' = cached p.
Proof. unfold cached. by intros (-> & _). Qed.

(** Once a value other than [None] is cached, every call returns it and
    changes nothing; only other code moves the state on, and only the
    collaborators' part of it. *)
Lemma final_present acts p v :
  cached p = Some v → is_None v = false →
  world_only p (final init acts p) ∧
  Forall (λ c, outcome c = Return v ∧ after c = before c)
         (history init acts p).
Proof.
  revert p. induction acts as [|[|f] acts IH]; intros p Hp Hv; simpl.
  - done.
  - rewrite (get_generator_present _ _ Hp Hv). simpl.
    destruct (IH _ Hp Hv) as [Hw Hh]. split; [done|]. by constructor.
  - destruct (IH (set_world (f (world p)) p) Hp Hv) as [Hw Hh].
    split; [|done]. by eapply world_only_trans.
Qed.

(** While nothing is cached, a run that contains no call changes only the
    collaborators' state. *)
Lemma final_no_call acts p :
  history init acts p = [] → world_only p (final init acts p).
Proof.
  revert p. induction acts as [|[|f] acts IH]; intros p Hh; simpl in *;
    [done..|].
  eapply world_only_trans; [|by apply IH]. done.
Qed.

(** Whatever a call returned is what the run leaves cached. *)
Lemma returned_stays_cached acts p c v :
  c ∈ history init acts p → outcome c = Return v →
  cached (final init acts p) = Some v ∧ is_None v = false.
Proof.
  intros (acts1 & acts2 & -> & Hb & Ho & Ha)%history_elem Hv.
  rewrite final_app. simpl. rewrite <-Hb, <-Ha.
  destruct (get_generator init (before c)) as [o p'] eqn:Hg. simpl in *.
  subst o p'. rewrite Hv in Hg. apply returned_is_cached in Hg as [Hc' Hn].
  split; [|done]. destruct (final_present acts2 _ _ Hc' Hn) as [Hw _].
  by rewrite (world_only_cached _ _ Hw).
Qed.

(** As long as every call raises, nothing gets cached and no object
    exists. *)
Lemma final_all_raised acts p :
  cached p = Some PyNone →
  Forall (λ c, returned c = false) (history init acts p) →
  cached (final init acts p) = Some PyNone ∧
  instances (final init acts p) = instances p.
Proof.
  revert p. induction acts as [|[|f] acts IH]; intros p Hp Hh; simpl in *.
  - done.
  - apply Forall_cons in Hh as [Hc0 Hh]. unfold returned in Hc0.
    simpl in Hc0. revert Hc0 Hh IH. call_cases p; try congruence;
      intros _ Hh IH; try (by apply IH).
    by apply IH in Hh as (-> & ->).
  - by apply (IH (set_world (f (world p)) p)).
Qed.

(** What a run from a state with nothing cached leaves cached: still
    nothing if every call raised, and otherwise a value that is not
    [None]. *)
Lemma final_absent acts p :
  cached p = Some PyNone →
  if existsb returned (history init acts p)
  then ∃ v, cached (final init acts p) = Some v ∧ is_None v = false
  else cached (final init acts p) = Some PyNone.
Proof.
  intros Hp. destruct (existsb _ _) eqn:Hex.
  - apply existsb_exists in Hex as (c & Hin%list_elem_of_In & Hret).
    unfold returned in Hret. destruct (outcome c) as [v|] eqn:Ho; [|done].
    exists v. by eapply returned_stays_cached.
  - apply final_all_raised; [done|]. apply Forall_forall.
    intros c Hin%list_elem_of_In.
    destruct (returned c) eqn:Hret; [|done].
    assert (existsb returned (history init acts p) = true) as Hex'
      by (apply existsb_exists; eauto).
    congruence.
Qed.

Lemma coherent_lifecycle p :
  coherent p →
  lifecycle_of p
  = Some (match cached p with
          | Some PyNone => Uninitialized
          | _ => Initialized
          end).
Proof.
  unfold coherent, lifecycle_of.
  by destruct (cached p) as [[| r | | | | | |]|].
Qed.

(** The life-cycle state after a run: [Initialized] exactly when some call
    of the run has returned. *)
Lemma final_lifecycle acts p :
  cached p = Some PyNone → coherent p →
  lifecycle_of (final init acts p)
  = Some (if existsb returned (history init acts p)
          then Initialized else Uninitialized).
Proof.
  intros Hp Hcoh. rewrite coherent_lifecycle by by apply final_coherent.
  pose proof (final_absent acts _ Hp) as Hf.
  destruct (existsb _ _).
  - destruct Hf as (v & -> & Hv). by destruct v.
  - by rewrite Hf.
Qed.

(** ** The claims about the accessor *)

(** C1. Singleton identity: in one process lifetime, from the import on and
    with no reset, whatever calls of [get_generator] return is one and the
    same object, and at no time does more than one generator object exist:
    before and after every call, and at the end of the run. *)
Theorem singleton_identity modules w p acts :
  module_body (exn:=exn) (boot modules w) = (Return (), p) →
  (∀ c1 c2 v1 v2,
     c1 ∈ history init acts p → c2 ∈ history init acts p →
     outcome c1 = Return v1 → outcome c2 = Return v2 → v1 = v2) ∧
  (∀ c v,
     c ∈ history init acts p → outcome c = Return v →
     ∃ r, v = PyObj r ∧ instances (after c) = [r]) ∧
  (∀ c,
     c ∈ history init acts p →
     (length (instances (before c)) ≤ 1)%nat ∧
     (length (instances (after c)) ≤ 1)%nat) ∧
  (length (instances (final init acts p)) ≤ 1)%nat.
Proof.
  intros (Hp & Hi & _)%imported_state.
  assert (coherent p) as Hcoh by (unfold coherent; by rewrite Hp).
  assert (∀ c, c ∈ history init acts p →
               coherent (before c) ∧ coherent (after c)) as Hall.
  { intros c (acts1 & acts2 & -> & Hb & _ & Ha)%history_elem.
    assert (coherent (before c)) as Hcb
      by (rewrite Hb; by apply final_coherent).
    split; [done|]. rewrite Ha. by apply (perform_coherent Call). }
  repeat split.
  - intros c1 c2 v1 v2 Hc1 Hc2 Ho1 Ho2.
    destruct (returned_stays_cached _ _ _ _ Hc1 Ho1) as [H1 _].
    destruct (returned_stays_cached _ _ _ _ Hc2 Ho2) as [H2 _].
    congruence.
  - intros c v Hin Ho. destruct (Hall _ Hin) as [_ Hca].
    apply history_elem in Hin as (_ & _ & _ & _ & Ho' & Ha).
    destruct (get_generator init (before c)) as [o q] eqn:Hg.
    simpl in *. subst o q. rewrite Ho in Hg.
    apply returned_is_cached in Hg as [Hv Hn].
    unfold coherent in Hca. rewrite Hv in Hca.
    destruct v; try done. by exists r.
  - by apply coherent_instances, Hall.
  - by apply coherent_instances, Hall.
  - by apply coherent_instances, final_coherent.
Qed.

(** C2, as amended. Construction count: under single-threaded access, for
    any number K >= 1 of calls of which the first returns normally, the
    constructor is invoked exactly once, regardless of K. *)
Theorem construction_count modules w p acts c v :
  module_body (exn:=exn) (boot modules w) = (Return (), p) →
  head (history init acts p) = Some c →
  outcome c = Return v →
  ctor_calls (final init acts p) = 1.
Proof.
  intros Himp Hhd Ho.
  pose proof (imported_class_bound _ _ Himp) as Hcls.
  apply imported_state in Himp as (Hp & _ & Hn).
  destruct (history init acts p) as [|c0 h2] eqn:Hh; simplify_eq/=.
  apply (history_split _ _ []) in Hh
    as (acts1 & acts2 & -> & Hh1 & Hb & Ho' & Ha & _).
  symmetry in Hh1. apply final_no_call in Hh1 as (Hg1 & _ & _ & Hn1).
  rewrite <-Hb in Hg1, Hn1.
  assert (cached (before c) = Some PyNone) as Hcb
    by (unfold cached; by rewrite Hg1).
  assert (class_bound (before c)) as Hclsb
    by (rewrite Hb; by apply final_class_bound).
  rewrite final_app. simpl. rewrite <-Hb, <-Ha.
  destruct (get_generator init (before c)) as [o q] eqn:Hg.
  simpl in *. subst o q. rewrite Ho in Hg.
  destruct (returned_is_cached _ _ _ Hg) as [Hv Hnone].
  destruct (final_present acts2 _ _ Hv Hnone) as [(_ & _ & _ & ->) _].
  revert Hg. rewrite get_generator_absent by done.
  unfold MLXGenerator. simpl.
  destruct (init (world (before c))) as [w' [e|]]; [done|].
  intros [= _ <-]. simpl. lia.
Qed.


(** What is cached when a call is made, by what the calls before it did. *)
Lemma before_call acts p h1 c h2 :
  cached p = Some PyNone →
  history init acts p = h1 ++ c :: h2 →
  if existsb returned h1
  then ∃ v, cached (before c) = Some v ∧ is_None v = false
  else cached (before c) = Some PyNone.
Proof.
  intros Hp (acts1 & acts2 & -> & -> & -> & _)%history_split.
  by apply final_absent.
Qed.

Lemma before_call_class_bound acts p h1 c h2 :
  class_bound p →
  history init acts p = h1 ++ c :: h2 →
  class_bound (before c).
Proof.
  intros Hp (acts1 & acts2 & -> & -> & -> & _)%history_split.
  by apply final_class_bound.
Qed.

Lemma call_record_eq acts p c :
  c ∈ history init acts p →
  get_generator init (before c) = (outcome c, after c).
Proof.
  intros (_ & _ & _ & _ & -> & ->)%history_elem.
  by destruct (get_generator init (before c)).
Qed.

Lemma elem_of_middle {A} (l1 : list A) x l2 : x ∈ l1 ++ x :: l2.
Proof. apply elem_of_app. right. by left. Qed.

Lemma existsb_false_Forall {A} (f : A → bool) (l : list A) :
  existsb f l = false ↔ Forall (λ x, f x = false) l.
Proof.
  induction l as [|x l IH]; simpl.
  - split; [by constructor|done].
  - rewrite orb_false_iff, Forall_cons, IH. done.
Qed.

(** C4, as amended. Lazy construction: running the module body (the import)
    never invokes the constructor, whether the import succeeds or not; the
    constructor is invoked only by calls of [get_generator] up to the first
    one that returns normally: a call that invokes it comes after no call
    that returned. *)
Theorem lazy_construction p0 modules w p acts h1 c h2 :
  ctor_calls (module_body (exn:=exn) p0).2 = ctor_calls p0 ∧
  instances (module_body (exn:=exn) p0).2 = instances p0 ∧
  (module_body (exn:=exn) (boot modules w) = (Return (), p) →
   history init acts p = h1 ++ c :: h2 →
   constructs c = true →
   Forall (λ c', returned c' = false) h1).
Proof.
  destruct (frames_module_body (exn:=exn) p0) as (_ & Hi & Hn & _).
  split; [done|]. split; [done|].
  intros (Hp & _ & _)%imported_state Hh Hcons.
  apply existsb_false_Forall.
  pose proof (before_call _ _ _ _ _ Hp Hh) as Hb.
  destruct (existsb returned h1); [|done].
  destruct Hb as (v & Hv & Hnone).
  pose proof (call_record_eq acts p c) as Hg.
  rewrite Hh in Hg. specialize (Hg (elem_of_middle _ _ _)).
  rewrite (get_generator_present _ _ Hv Hnone) in Hg.
  injection Hg as _ Ha. unfold constructs in Hcons.
  rewrite <-Ha, Nat.eqb_refl in Hcons. done.
Qed.

(** C5, as amended. Frame condition: a call changes the cached reference
    only if it is the first call that returns normally, and it then sets it
    to the object it returns; the first call that returns normally does
    change it; every call after that one returns the same object and
    leaves the whole process state as it was. *)
Theorem cached_reference_frame modules w p acts h1 c h2 :
  module_body (exn:=exn) (boot modules w) = (Return (), p) →
  history init acts p = h1 ++ c :: h2 →
  (mutates c = true →
   Forall (λ c', returned c' = false) h1 ∧
   cached (before c) = Some PyNone ∧
   ∃ r, outcome c = Return (PyObj r) ∧ cached (after c) = Some (PyObj r)) ∧
  (Forall (λ c', returned c' = false) h1 → returned c = true →
   mutates c = true) ∧
  (∀ c' v, c' ∈ h1 → outcome c' = Return v →
           outcome c = Return v ∧ after c = before c).
Proof.
  intros Himp Hh.
  pose proof (before_call_class_bound _ _ _ _ _
                (imported_class_bound _ _ Himp) Hh) as Hcls.
  apply imported_state in Himp as (Hp & _ & _).
  pose proof (call_record_eq acts p c) as Hg.
  rewrite Hh in Hg. specialize (Hg (elem_of_middle _ _ _)).
  pose proof (before_call _ _ _ _ _ Hp Hh) as Hb.
  split; [|split].
  - intros Hmut. unfold mutates in Hmut. apply bool_decide_eq_true in Hmut.
    destruct (existsb returned h1) eqn:Hex.
    + destruct Hb as (v & Hv & Hnone).
      rewrite (get_generator_present _ _ Hv Hnone) in Hg.
      injection Hg as _ Ha. by rewrite <-Ha in Hmut.
    + split; [by apply existsb_false_Forall|]. split; [done|].
      revert Hg Hmut. rewrite get_generator_absent by done.
      unfold MLXGenerator. simpl.
      destruct (init (world (before c))) as [w' [e|]].
      * intros [= _ <-]. done.
      * intros [= <- <-] _. eexists. split; [done|].
        unfold cached. simpl. by rewrite lookup_insert_eq.
  - intros Hall%existsb_false_Forall Hret. rewrite Hall in Hb.
    unfold returned in Hret. destruct (outcome c) as [v|] eqn:Ho; [|done].
    apply returned_is_cached in Hg as [Hv Hnone].
    unfold mutates. apply bool_decide_eq_true. rewrite Hb, Hv.
    intros [= ->]. done.
  - intros c' v Hin Ho.
    apply history_split in Hh as (acts1 & acts2 & -> & -> & Hbc & _).
    destruct (returned_stays_cached _ _ _ _ Hin Ho) as [Hv Hnone].
    rewrite <-Hbc in Hv.
    rewrite (get_generator_present _ _ Hv Hnone) in Hg.
    by injection Hg as <- <-.
Qed.

(** A call that raises found nothing cached and raised what the
    constructor raised. *)
Lemma raising_call acts p c e :
  cached p = Some PyNone → coherent p → class_bound p →
  c ∈ history init acts p →
  outcome c = Raise e →
  cached (before c) = Some PyNone ∧
  MLXGenerator init (before c) = (Raise e, after c).
Proof.
  intros Hp Hcoh Hcls Hin Ho.
  pose proof (call_record_eq _ _ _ Hin) as Hg.
  apply history_elem in Hin as (acts1 & _ & _ & Hb & _ & _).
  assert (coherent (before c)) as Hcb
    by (rewrite Hb; by apply final_coherent).
  assert (class_bound (before c)) as Hclsb
    by (rewrite Hb; by apply final_class_bound).
  rewrite Ho in Hg. unfold coherent in Hcb.
  destruct (cached (before c)) as [[| r | | | | | |]|] eqn:Hcached; try done.
  - split; [done|]. revert Hg. rewrite get_generator_absent by done.
    by destruct (MLXGenerator init (before c)) as [[obj|e'] q].
  - by rewrite (get_generator_present _ _ Hcached) in Hg.
Qed.

(** C6. Error propagation: in a run from the import, a call raises exactly
    when it invokes the constructor and the constructor raises; the caller
    gets the very exception the constructor raised, with the process in the
    state the constructor left it in.  The accessor has no failure of its
    own and recovers from none. *)
Theorem construction_failure_propagates modules w p acts c :
  module_body (exn:=exn) (boot modules w) = (Return (), p) →
  c ∈ history init acts p →
  (∀ e q,
     cached (before c) = Some PyNone →
     MLXGenerator init (before c) = (Raise e, q) →
     outcome c = Raise e ∧ after c = q) ∧
  (∀ e,
     outcome c = Raise e →
     cached (before c) = Some PyNone ∧
     MLXGenerator init (before c) = (Raise e, after c)).
Proof.
  intros Himp Hin.
  pose proof (imported_class_bound _ _ Himp) as Hcls.
  apply imported_state in Himp as (Hp & Hi & _).
  assert (coherent p) as Hcoh by (unfold coherent; by rewrite Hp).
  split.
  - intros e q Hnone Hctor.
    pose proof (call_record_eq _ _ _ Hin) as Hg.
    assert (class_bound (before c)) as Hclsb.
    { apply history_elem in Hin as (acts1 & _ & _ & -> & _ & _).
      by apply final_class_bound. }
    rewrite get_generator_absent, Hctor in Hg by done.
    by injection Hg as <- <-.
  - intros e Ho. by eapply raising_call.
Qed.

(** C7, as amended. One-way life cycle: in a run from the import the
    cached state is always one of the two states [Uninitialized] and
    [Initialized]; it starts [Uninitialized], it is [Initialized] from the
    first call that returns normally on, and it never goes back: extending
    a run that ended [Initialized] ends [Initialized]. *)
Theorem one_way_lifecycle modules w p acts :
  module_body (exn:=exn) (boot modules w) = (Return (), p) →
  lifecycle_of p = Some Uninitialized ∧
  (∀ h1 c h2,
     history init acts p = h1 ++ c :: h2 →
     lifecycle_of (before c)
     = Some (if existsb returned h1 then Initialized else Uninitialized) ∧
     lifecycle_of (after c)
     = Some (if existsb returned (h1 ++ [c])
             then Initialized else Uninitialized)) ∧
  lifecycle_of (final init acts p)
  = Some (if existsb returned (history init acts p)
          then Initialized else Uninitialized) ∧
  (∀ acts',
     lifecycle_of (final init acts p) = Some Initialized →
     lifecycle_of (final init (acts ++ acts') p) = Some Initialized).
Proof.
  intros (Hp & Hi & _)%imported_state.
  assert (coherent p) as Hcoh by (unfold coherent; by rewrite Hp).
  split; [unfold lifecycle_of; by rewrite Hp|]. split; [|split].
  - intros h1 c h2 (acts1 & acts2 & -> & -> & Hb & Ho & Ha & _)%history_split.
    split; [rewrite Hb; by apply final_lifecycle|].
    assert (after c = final init (acts1 ++ [Call]) p) as ->
      by (rewrite final_app; simpl; by rewrite <-Hb, <-Ha).
    assert (history init acts1 p ++ [c]
            = history init (acts1 ++ [Call]) p) as ->.
    { rewrite history_app. simpl. rewrite <-Hb, <-Ho, <-Ha. by destruct c. }
    by apply final_lifecycle.
  - by apply final_lifecycle.
  - intros acts'. rewrite !final_lifecycle, history_app by done.
    rewrite existsb_app. by destruct (existsb returned (history init acts p)).
Qed.

(** C9. Atomicity on construction failure: in a run from the import, a call
    that raises leaves the cached state as it was, with nothing cached, and
    the next call invokes the constructor again; that call returns only if
    its own construction completes, and then it returns the new object. *)
Theorem failed_construction_is_retried modules w p acts h1 c h2 e :
  module_body (exn:=exn) (boot modules w) = (Return (), p) →
  history init acts p = h1 ++ c :: h2 →
  outcome c = Raise e →
  cached (before c) = Some PyNone ∧
  cached (after c) = Some PyNone ∧
  (∀ c', head h2 = Some c' →
     constructs c' = true ∧
     ∀ v, outcome c' = Return v →
          ∃ w', init (world (before c')) = (w', None) ∧
                v = PyObj (fresh (instances (before c')))).
Proof.
  intros Himp Hh Ho.
  pose proof (imported_class_bound _ _ Himp) as Hcls.
  pose proof (before_call_class_bound _ _ _ _ _ Hcls Hh) as Hclsb.
  apply imported_state in Himp as (Hp & Hi & _).
  assert (coherent p) as Hcoh by (unfold coherent; by rewrite Hp).
  assert (c ∈ history init acts p) as Hin
    by (rewrite Hh; apply elem_of_middle).
  destruct (raising_call _ _ _ _ Hp Hcoh Hcls Hin Ho) as [Hnone Hctor].
  split; [done|].
  assert (cached (after c) = Some PyNone) as Hafter.
  { revert Hctor. unfold MLXGenerator. simpl.
    destruct (init (world (before c))) as [w' [e'|]]; [|done].
    intros [= _ <-]. done. }
  split; [done|]. intros c' Hhd.
  apply history_split in Hh as (_ & acts2 & _ & _ & _ & _ & Ha & Hh2).
  assert (class_bound (after c)) as Hclsa
    by (rewrite Ha; by apply (perform_class_bound Call)).
  destruct h2 as [|c0 h2]; simplify_eq/=. symmetry in Hh2.
  assert (c' ∈ history init acts2 (after c)) as Hin'
    by (rewrite Hh2; by left).
  pose proof (call_record_eq _ _ _ Hin') as Hg.
  apply (history_split _ _ []) in Hh2 as (a1 & _ & _ & Hno & Hb & _).
  symmetry in Hno. apply final_no_call in Hno as (Hgl & _).
  assert (cached (before c') = Some PyNone) as Hnone'
    by (rewrite Hb; unfold cached; by rewrite Hgl).
  assert (class_bound (before c')) as Hclsb'
    by (rewrite Hb; by apply final_class_bound).
  revert Hg. rewrite get_generator_absent by done.
  unfold constructs, MLXGenerator. cbn [world ctor_calls].
  destruct (init (world (before c'))) as [w' [e'|]]; intros [= <- <-];
    cbn [ctor_calls set_globals set_world].
  - split; [|done]. apply negb_true_iff, Nat.eqb_neq. lia.
  - split; [apply negb_true_iff, Nat.eqb_neq; lia|].
    intros v [= <-]. by exists w'.
Qed.


(** ** Further properties of the accessor *)

(** X5. Running the module body again (a reload of the package) empties the
    cache whatever it held, and once the constructor completes the next call
    returns a new object, distinct from every generator constructed before:
    the singleton does not survive a reload. *)
Theorem module_body_resets_cache p p' w :
  module_body (exn:=exn) p = (Return (), p') →
  init (world p') = (w, None) →
  cached p' = Some PyNone ∧
  ∃ r', (get_generator init p').1 = Return (PyObj r') ∧
        ∀ r, r ∈ instances p → r' ≠ r.
Proof.
  intros (ns_g & ns_l & ns_p & ns_t & _ & _ & _ & _ & (_ & Hi & _) &
          _ & _ & _ & _ & Hlook & _ & Hcls)%module_body_returns Hw.
  assert (cached p' = Some PyNone) as Hc
    by (unfold cached; by rewrite Hlook by done).
  split; [done|]. exists (fresh (instances p')).
  rewrite (get_generator_absent_completes _ _ Hc Hcls Hw). split; [done|].
  intros r Hr <-. rewrite <-Hi in Hr. by apply infinite_is_fresh in Hr.
Qed.


Lemma present_history_returned acts p v :
  cached p = Some v → is_None v = false →
  Forall (λ c, returned c = true) (history init acts p).
Proof.
  intros Hp Hv. destruct (final_present acts _ _ Hp Hv) as [_ Hall].
  eapply Forall_impl; [exact Hall|]. intros c [Ho _]. unfold returned.
  by rewrite Ho.
Qed.

Lemma filter_raised_nil (h : list (call_record Ext exn)) :
  Forall (λ c, returned c = true) h →
  filter (λ c, returned c = false) h = [].
Proof.
  induction 1 as [|c h Hc _ IH]; [done|].
  rewrite filter_cons_False by congruence. done.
Qed.

Lemma raised_count_cons c (h : list (call_record Ext exn)) :
  length (filter (λ c, returned c = false) (c :: h))
  = ((if returned c then 0 else 1)
     + length (filter (λ c, returned c = false) h))%nat.
Proof.
  rewrite filter_cons.
  destruct (decide (returned c = false)) as [->|Hr]; [done|].
  by destruct (returned c).
Qed.

Lemma returned_Return p v q :
  returned (mkCall (exn:=exn) p (Return v) q) = true.
Proof. done. Qed.

Lemma returned_Raise p (e : exception exn) q :
  returned (mkCall p (Raise e) q) = false.
Proof. done. Qed.

Lemma absent_accounting acts p :
  cached p = Some PyNone → class_bound p →
  ctor_calls (final init acts p)
  = (ctor_calls p
     + length (filter (λ c, returned c = false) (history init acts p))
     + (if existsb returned (history init acts p) then 1 else 0))%nat.
Proof.
  revert p. induction acts as [|[|f] acts IH]; intros p Hp Hcls.
  - simpl. lia.
  - cbn [history final perform existsb]. rewrite raised_count_cons.
    pose proof (perform_class_bound Call p Hcls) as Hcls'.
    destruct (class_bound_callable _ Hcls) as (callee0 & Hcallee0 & Hcall0).
    pose proof (get_generator_spec p) as Hs. cbn [perform] in Hcls'.
    destruct (get_generator init p) as [o q]. cbn [fst snd] in *.
    inversion Hs as [Hc | v Hc Hn | Hc Hcallee | callee Hc Hcallee Hcall
                    | w callee Hc Hcallee Hcall Hw
                    | w e callee Hc Hcallee Hcall Hw]; subst;
      rewrite ?returned_Return, ?returned_Raise.
    + congruence.
    + rewrite Hp in Hc. injection Hc as <-. discriminate.
    + congruence.
    + congruence.
    + set (q := mkProcess _ _ _ _ _).
      assert (cached q = Some (PyObj (fresh (instances p)))) as Hq
        by (unfold cached; simpl; by rewrite lookup_insert_eq).
      destruct (final_present acts _ _ Hq eq_refl) as [(_ & _ & _ & ->) _].
      rewrite filter_raised_nil by (by eapply present_history_returned).
      simpl. lia.
    + rewrite IH by done. simpl. lia.
  - cbn [history final perform].
    by rewrite (IH (set_world (f (world p)) p)).
Qed.

(** X7. Construction accounting: in a run from the import the constructor has
    been invoked once for every call that raised, and once more if some call
    has returned. *)
Theorem construction_accounting modules w p acts :
  module_body (exn:=exn) (boot modules w) = (Return (), p) →
  ctor_calls (final init acts p)
  = (length (filter (λ c, returned c = false) (history init acts p))
     + (if existsb returned (history init acts p) then 1 else 0))%nat.
Proof.
  intros Himp. pose proof (imported_class_bound _ _ Himp) as Hcls.
  apply imported_state in Himp as (Hp & _ & Hn).
  rewrite absent_accounting, Hn by done. lia.
Qed.

(** X8. With [_generator] unbound (not yet imported, or deleted) the
    accessor does not create it: every call of a run raises [NameError] for
    that name and changes nothing, and no constructor is invoked. *)
Theorem unbound_cache_raises acts p :
  cached p = None →
  Forall (λ c, outcome c = Raise (NameError "_generator") ∧
               after c = before c)
         (history init acts p) ∧
  world_only p (final init acts p).
Proof.
  revert p. induction acts as [|[|f] acts IH]; intros p Hp; simpl.
  - done.
  - rewrite (get_generator_unbound _ Hp). simpl.
    destruct (IH _ Hp) as [Hh Hw]. split; [by constructor|done].
  - destruct (IH (set_world (f (world p)) p) Hp) as [Hh Hw].
    split; [done|]. by eapply world_only_trans.
Qed.

(** X9. A cache that already holds a value other than [None], whatever the
    value (a stand-in put there by a test, say), is honoured: every call of
    a run returns that value and changes nothing, and no constructor is
    invoked. *)
Theorem seeded_cache_is_returned acts p v :
  cached p = Some v → v ≠ PyNone →
  Forall (λ c, outcome c = Return v ∧ after c = before c)
         (history init acts p) ∧
  world_only p (final init acts p).
Proof.
  intros Hp Hv.
  destruct (final_present acts _ _ Hp) as [Hw Hh]; [by destruct v|done].
Qed.

End Properties.

(** * The properties on concrete runs *)

(** Closed equations between runs of the model are settled by evaluation. *)
Ltac by_evaluation := vm_compute; reflexivity.

Lemma imported_ok :
  module_body (exn:=load_error) (boot collaborators 0) = (Return (), imported).
Proof. by_evaluation. Qed.

Lemma flaky_history :
  history flaky_init [Call; Call; Call] imported
  = [first_attempt; second_attempt; later_call].
Proof. by_evaluation. Qed.

Lemma reliable_history :
  history reliable_init [Call; Call; Call] imported
  = [first_call; mkCall warm (Return (PyObj 0)) warm;
     mkCall warm (Return (PyObj 0)) warm].
Proof. by_evaluation. Qed.

Lemma singleton_identity_witness :
  module_body (exn:=load_error) (boot collaborators 0) = (Return (), imported) ∧
  (length (instances (final flaky_init [Call; Call; Call] imported)) ≤ 1)%nat.
Proof.
  split; [exact imported_ok|].
  apply (singleton_identity flaky_init collaborators 0 imported
           [Call; Call; Call] imported_ok).
Defined.

Lemma construction_count_witness :
  module_body (exn:=load_error) (boot collaborators 0) = (Return (), imported) ∧
  head (history reliable_init [Call; Call; Call] imported) = Some first_call ∧
  outcome first_call = Return (PyObj 0) ∧
  ctor_calls (final reliable_init [Call; Call; Call] imported) = 1.
Proof.
  assert (head (history reliable_init [Call; Call; Call] imported)
          = Some first_call) as Hhd by (rewrite reliable_history; reflexivity).
  split; [exact imported_ok|]. split; [exact Hhd|]. split; [reflexivity|].
  apply (construction_count reliable_init collaborators 0 imported
           [Call; Call; Call] first_call (PyObj 0) imported_ok Hhd).
  reflexivity.
Defined.

(** The claim C2 as it is stated fails when the first construction raises:
    two calls, two invocations of the constructor. *)
Lemma construction_count_counterexample :
  module_body (exn:=load_error) (boot collaborators 0) = (Return (), imported) ∧
  history flaky_init [Call; Call] imported = [first_attempt; second_attempt] ∧
  ctor_calls (final flaky_init [Call; Call] imported) = 2 ∧
  ctor_calls (final flaky_init [Call; Call] imported) ≠ 1.
Proof.
  split; [exact imported_ok|]. split; [by_evaluation|].
  split; [by_evaluation|].
  replace (ctor_calls (final flaky_init [Call; Call] imported)) with 2
    by by_evaluation.
  discriminate.
Qed.


Lemma lazy_construction_witness :
  module_body (exn:=load_error) (boot collaborators 0) = (Return (), imported) ∧
  history flaky_init [Call; Call; Call] imported
  = [first_attempt] ++ second_attempt :: [later_call] ∧
  constructs second_attempt = true ∧
  Forall (λ c, returned c = false) [first_attempt].
Proof.
  split; [exact imported_ok|]. split; [exact flaky_history|].
  assert (constructs second_attempt = true) as Hc by by_evaluation.
  split; [exact Hc|].
  exact (proj2 (proj2 (lazy_construction flaky_init imported collaborators 0
                         imported [Call; Call; Call] [first_attempt]
                         second_attempt [later_call]))
           imported_ok flaky_history Hc).
Defined.

(** The claim C4 as it is stated fails when the first construction raises:
    the import invokes nothing, but the second call invokes the constructor
    as the first did. *)
Lemma lazy_construction_counterexample :
  module_body (exn:=load_error) (boot collaborators 0) = (Return (), imported) ∧
  history flaky_init [Call; Call] imported = [first_attempt; second_attempt] ∧
  constructs first_attempt = true ∧
  constructs second_attempt = true.
Proof.
  split; [exact imported_ok|]. repeat split; by_evaluation.
Qed.

Lemma cached_reference_frame_witness :
  module_body (exn:=load_error) (boot collaborators 0) = (Return (), imported) ∧
  history flaky_init [Call; Call; Call] imported
  = [first_attempt; second_attempt] ++ later_call :: [] ∧
  outcome later_call = Return (PyObj 0) ∧ after later_call = before later_call.
Proof.
  split; [exact imported_ok|]. split; [exact flaky_history|].
  apply (proj2 (proj2 (cached_reference_frame flaky_init collaborators 0
                         imported [Call; Call; Call]
                         [first_attempt; second_attempt]
                         later_call [] imported_ok flaky_history))
           second_attempt (PyObj 0)).
  - apply elem_of_cons. right. apply elem_of_cons. left. reflexivity.
  - reflexivity.
Defined.

(** The claim C5 as it is stated fails when the first construction raises:
    the first call leaves the cached reference as it was and the second
    call, a subsequent one, sets it. *)
Lemma cached_reference_frame_counterexample :
  module_body (exn:=load_error) (boot collaborators 0) = (Return (), imported) ∧
  history flaky_init [Call; Call] imported = [first_attempt; second_attempt] ∧
  mutates first_attempt = false ∧
  mutates second_attempt = true ∧
  after second_attempt ≠ before second_attempt.
Proof.
  split; [exact imported_ok|]. repeat split; try by_evaluation.
  intros Heq. apply (f_equal ctor_calls) in Heq. revert Heq.
  replace (ctor_calls (after second_attempt)) with 2 by by_evaluation.
  replace (ctor_calls (before second_attempt)) with 1 by by_evaluation.
  discriminate.
Qed.

Lemma construction_failure_propagates_witness :
  module_body (exn:=load_error) (boot collaborators 0) = (Return (), imported) ∧
  first_attempt ∈ history flaky_init [Call; Call; Call] imported ∧
  cached (before first_attempt) = Some PyNone ∧
  MLXGenerator flaky_init (before first_attempt)
  = (Raise (Collaborator WeightsMissing), after first_attempt).
Proof.
  assert (first_attempt ∈ history flaky_init [Call; Call; Call] imported)
    as Hin by (rewrite flaky_history; apply elem_of_cons; left; reflexivity).
  split; [exact imported_ok|]. split; [exact Hin|].
  apply (proj2 (construction_failure_propagates flaky_init collaborators 0
                  imported [Call; Call; Call] first_attempt imported_ok Hin)).
  reflexivity.
Defined.

Lemma one_way_lifecycle_witness :
  module_body (exn:=load_error) (boot collaborators 0) = (Return (), imported) ∧
  lifecycle_of imported = Some Uninitialized.
Proof.
  split; [exact imported_ok|].
  apply (one_way_lifecycle flaky_init collaborators 0 imported
           [Call; Call; Call] imported_ok).
Defined.

(** The claim C7 as it is stated fails when the first construction raises:
    after the first call the state is still [Uninitialized], and it is the
    second call that makes the transition. *)
Lemma one_way_lifecycle_counterexample :
  module_body (exn:=load_error) (boot collaborators 0) = (Return (), imported) ∧
  history flaky_init [Call; Call] imported = [first_attempt; second_attempt] ∧
  lifecycle_of (after first_attempt) = Some Uninitialized ∧
  lifecycle_of (before second_attempt) = Some Uninitialized ∧
  lifecycle_of (after second_attempt) = Some Initialized.
Proof.
  split; [exact imported_ok|]. repeat split; by_evaluation.
Qed.

Lemma reexport_completeness_witness :
  module_body (exn:=load_error) (boot collaborators 0) = (Return (), imported) ∧
  from_models_import (exn:=load_error) "get_generator" imported
  = (Return (PyFunction "get_generator" []), imported).
Proof.
  split; [exact imported_ok|].
  apply (reexport_completeness collaborators 0 imported imported_ok).
Defined.

Lemma failed_construction_is_retried_witness :
  module_body (exn:=load_error) (boot collaborators 0) = (Return (), imported) ∧
  history flaky_init [Call; Call; Call] imported
  = [] ++ first_attempt :: [second_attempt; later_call] ∧
  outcome first_attempt = Raise (Collaborator WeightsMissing) ∧
  cached (after first_attempt) = Some PyNone ∧
  constructs second_attempt = true.
Proof.
  split; [exact imported_ok|]. split; [exact flaky_history|].
  split; [reflexivity|].
  destruct (failed_construction_is_retried flaky_init collaborators 0 imported
              [Call; Call; Call] [] first_attempt [second_attempt; later_call]
              (Collaborator WeightsMissing) imported_ok flaky_history eq_refl)
    as (_ & Hafter & Hnext).
  split; [exact Hafter|]. apply (Hnext second_attempt). reflexivity.
Defined.


(** ** The further properties on concrete runs *)

Lemma failed_import_defines_no_accessor_witness :
  module_body (exn:=load_error) (boot ∅ 0)
  = (Raise (ModuleNotFoundError "models.generator"), import_failed) ∧
  globals import_failed !! "get_generator" = None.
Proof.
  assert (module_body (exn:=load_error) (boot ∅ 0)
          = (Raise (ModuleNotFoundError "models.generator"), import_failed))
    as Hr by by_evaluation.
  split; [exact Hr|].
  apply (failed_import_defines_no_accessor ∅ 0 _ import_failed Hr).
Defined.



Lemma star_import_after_import_witness :
  module_body (exn:=load_error) (boot collaborators 0) = (Return (), imported) ∧
  ∃ m, import_star imported = inr m ∧ m !! "get_generator" = None.
Proof.
  split; [exact imported_ok|].
  destruct (star_import_after_import collaborators 0 imported imported_ok)
    as (m & Hm & _ & _ & Hg & _).
  exists m. split; [exact Hm|exact Hg].
Defined.

Lemma module_body_resets_cache_witness :
  module_body (exn:=load_error) warm = (Return (), reloaded) ∧
  reliable_init (world reloaded) = (2, None) ∧
  cached warm = Some (PyObj 0) ∧
  cached reloaded = Some PyNone.
Proof.
  assert (module_body (exn:=load_error) warm = (Return (), reloaded))
    as Hr by by_evaluation.
  assert (reliable_init (world reloaded) = (2, None)) as Hw by by_evaluation.
  split; [exact Hr|]. split; [exact Hw|]. split; [by_evaluation|].
  apply (module_body_resets_cache reliable_init warm reloaded 2 Hr Hw).
Defined.


Lemma construction_accounting_witness :
  module_body (exn:=load_error) (boot collaborators 0) = (Return (), imported) ∧
  ctor_calls (final flaky_init [Call; Call; Call] imported)
  = (length (filter (λ c, returned c = false)
               (history flaky_init [Call; Call; Call] imported))
     + (if existsb returned (history flaky_init [Call; Call; Call] imported)
        then 1 else 0))%nat.
Proof.
  split; [exact imported_ok|].
  apply (construction_accounting flaky_init collaborators 0 imported
           [Call; Call; Call] imported_ok).
Defined.

Lemma unbound_cache_raises_witness :
  cached (boot collaborators 0) = None ∧
  world_only (boot collaborators 0)
             (final flaky_init [Call; Call] (boot collaborators 0)).
Proof.
  assert (cached (boot collaborators 0) = None) as Hc by reflexivity.
  split; [exact Hc|].
  apply (unbound_cache_raises flaky_init [Call; Call] (boot collaborators 0) Hc).
Defined.

Lemma seeded_cache_is_returned_witness :
  cached seeded = Some (PyStr "stand-in") ∧
  PyStr "stand-in" ≠ PyNone ∧
  world_only seeded (final flaky_init [Call; Call] seeded).
Proof.
  assert (cached seeded = Some (PyStr "stand-in")) as Hc by by_evaluation.
  assert (PyStr "stand-in" ≠ PyNone) as Hv by discriminate.
  split; [exact Hc|]. split; [exact Hv|].
  apply (seeded_cache_is_returned flaky_init [Call; Call] seeded
           (PyStr "stand-in") Hc Hv).
Defined.
